(** * educause_meetings_map.py: the join of the meetings table with the
      coordinate table, the rendering sequence and the overwrite prompt.

    The script is modelled as state-passing code over an explicit [world]:
    the lines waiting on standard input, what was written to standard
    output, the files on disk, the calls made on the matplotlib/cartopy
    canvas and the figures put on screen.  Exceptions and [sys.exit] are
    outcomes of a run.  Python floats are IEEE binary64 numbers, which is
    what Rocq's primitive floats are; Python ints are [Z]. *)

From Stdlib Require Import ZArith Ascii String DecimalString PrimFloat.
From stdpp Require Import gmap strings list fin_maps.

#[local] Set Warnings "-inexact-float".

Local Open Scope Z_scope.
Local Open Scope string_scope.
Local Open Scope list_scope.

(** ** Strings and numbers *)

(** [str(n)] for an int, as an f-string field [{n}] renders it. *)
Definition str_of_int (n : Z) : string := NilZero.string_of_int (Z.to_int n).

(** [c.lower()] on one character.  Strings are byte strings here; only the
    ASCII capitals have a different lower-case form in the model.  No
    character outside ASCII lower-cases to an ASCII letter in Python, so a
    comparison of [s.lower()] with an ASCII literal is not affected. *)
Definition lower_ascii (c : ascii) : ascii :=
  let n := nat_of_ascii c in
  if (65 <=? n)%nat && (n <=? 90)%nat then ascii_of_nat (n + 32) else c.

(** [s.lower()] *)
Fixpoint lower (s : string) : string :=
  match s with
  | EmptyString => EmptyString
  | String c s' => String (lower_ascii c) (lower s')
  end.

(** The double-quote character, for the prompt of [confirm_overwrite]. *)
Definition dquote : string := String (ascii_of_nat 34) EmptyString.

(** ** The static tables *)

(** [meetings: List[Tuple[int, str]]] *)
Definition meetings : list (Z * string) :=
  [ (1999, "Long Beach, California");
    (2000, "Nashville, Tennessee");
    (2001, "Indianapolis, Indiana");
    (2002, "Atlanta, Georgia");
    (2003, "Anaheim, California");
    (2004, "Denver, Colorado");
    (2005, "Orlando, Florida");
    (2006, "Dallas, Texas");
    (2007, "Seattle, Washington");
    (2008, "Orlando, Florida");
    (2009, "Denver, Colorado");
    (2010, "Anaheim, California");
    (2011, "Philadelphia, Pennsylvania");
    (2012, "Denver, Colorado");
    (2013, "Anaheim, California");
    (2014, "Orlando, Florida");
    (2015, "Indianapolis, Indiana");
    (2016, "Anaheim, California");
    (2017, "Philadelphia, Pennsylvania");
    (2018, "Denver, Colorado");
    (2019, "Chicago, Illinois");
    (2021, "Philadelphia, Pennsylvania");
    (2022, "Denver, Colorado");
    (2023, "Chicago, Illinois");
    (2024, "San Antonio, Texas") ].

(** A coordinate table: a dict from city name to [(latitude, longitude)]. *)
Abbreviation coord_table := (gmap string (float * float)).

(** [city_coords], a dict literal with twelve distinct keys. *)
Definition city_coords : coord_table :=
  list_to_map
    [ ("Long Beach, California", (33.7701, -118.1937)%float);
      ("Nashville, Tennessee", (36.1627, -86.7816)%float);
      ("Indianapolis, Indiana", (39.7684, -86.1581)%float);
      ("Atlanta, Georgia", (33.7490, -84.3880)%float);
      ("Anaheim, California", (33.8366, -117.9143)%float);
      ("Denver, Colorado", (39.7392, -104.9903)%float);
      ("Orlando, Florida", (28.5383, -81.3792)%float);
      ("Dallas, Texas", (32.7767, -96.7970)%float);
      ("Seattle, Washington", (47.6062, -122.3321)%float);
      ("Philadelphia, Pennsylvania", (39.9526, -75.1652)%float);
      ("Chicago, Illinois", (41.8781, -87.6298)%float);
      ("San Antonio, Texas", (29.4241, -98.4936)%float) ].

(** ** The world a run acts on *)

(** What reaches standard output: a line written by [print], or the prompt
    that [input] writes before it reads. *)
Inductive out_event : Type :=
  | Printed (line : string)
  | Prompted (prompt : string).

Inductive projection : Type := LambertConformal.
Inductive crs : Type := Geodetic.
Inductive feature : Type := LAND | OCEAN | BORDERS | LAKES | RIVERS.

(** The output formats [argparse] lets through ([choices]). *)
Inductive fmt : Type := pdf | png | jpg.

Definition fmt_str (f : fmt) : string :=
  match f with pdf => "pdf" | png => "png" | jpg => "jpg" end.

(** One call on the plotting library, with the arguments the script passes.
    The ints of the extent list are written as the floats they denote. *)
Inductive draw_cmd : Type :=
  | Figure (width height : Z)
  | Axes (p : projection)
  | SetExtent (x0 x1 y0 y1 : float) (c : crs)
  | AddFeature (f : feature) (linestyle : option string) (alpha : option float)
  | Coastlines (resolution : string)
  | Plot (x y : float) (style : string) (markersize : Z) (transform : crs)
  | Text (x y : float) (s : string) (transform : crs)
  | Annotate (text : string) (xy xytext : float * float)
             (arrowstyle color : string) (transform : crs)
  | Title (s : string).

Record world : Type := World {
  stdin : list string;                  (* lines still to be read *)
  stdout : list out_event;              (* everything written so far *)
  fs : gmap string (list Byte.byte);    (* path -> contents of the file *)
  canvas : list draw_cmd;               (* calls on the current figure *)
  displayed : list (list draw_cmd)      (* figures shown by [plt.show] *)
}.

Inductive exn : Type := IndexError | EOFError.

(** How a computation ends: with a value, with an exception, or with
    [sys.exit(code)]. *)
Inductive outcome (A : Type) : Type :=
  | Ok (a : A)
  | Raise (e : exn)
  | Exit (code : Z).
Arguments Ok {A} a.
Arguments Raise {A} e.
Arguments Exit {A} code.

(** ** The monad of the script *)

Definition Py (A : Type) : Type := world -> world * outcome A.

Definition run {A} (m : Py A) (w : world) : world * outcome A := m w.

Definition ret {A} (a : A) : Py A := fun w => (w, Ok a).

Definition bind {A B} (m : Py A) (k : A -> Py B) : Py B :=
  fun w =>
    match m w with
    | (w', Ok a) => k a w'
    | (w', Raise e) => (w', Raise e)
    | (w', Exit c) => (w', Exit c)
    end.

#[global] Instance Py_ret : MRet Py := @ret.
#[global] Instance Py_bind : MBind Py := fun A B k m => bind m k.

Definition raise {A} (e : exn) : Py A := fun w => (w, Raise e).

(** [sys.exit(code)] *)
Definition sys_exit {A} (code : Z) : Py A := fun w => (w, Exit code).

(** The world after [evs] went to standard output. *)
Definition emit (w : world) (evs : list out_event) : world :=
  World (stdin w) (stdout w ++ evs) (fs w) (canvas w) (displayed w).

(** The world after the calls [cmds] on the current figure. *)
Definition drawn (w : world) (cmds : list draw_cmd) : world :=
  World (stdin w) (stdout w) (fs w) (canvas w ++ cmds) (displayed w).

(** [print(line)] *)
Definition print (line : string) : Py unit :=
  fun w => (emit w [Printed line], Ok tt).

(** [input(prompt)]: writes the prompt, then reads one line; [EOFError] when
    standard input is exhausted. *)
Definition input (prompt : string) : Py string :=
  fun w =>
    let out := stdout w ++ [Prompted prompt] in
    match stdin w with
    | [] => (World [] out (fs w) (canvas w) (displayed w), Raise EOFError)
    | line :: rest => (World rest out (fs w) (canvas w) (displayed w), Ok line)
    end.

(** [os.path.exists(path)] *)
Definition path_exists (path : string) : Py bool :=
  fun w => (w, Ok (bool_decide (is_Some (fs w !! path)))).

(** A drawing call: [plt.figure], [ax.plot], [ax.text], ... *)
Definition draw (c : draw_cmd) : Py unit :=
  fun w => (drawn w [c], Ok tt).

(** [plt.show()]: the current figure goes on screen. *)
Definition show : Py unit :=
  fun w => (World (stdin w) (stdout w) (fs w) (canvas w)
                  (displayed w ++ [canvas w]), Ok tt).

(** [l[i]] for [i >= 0] *)
Definition index {A} (l : list A) (i : nat) : Py A :=
  match l !! i with
  | Some x => ret x
  | None => raise IndexError
  end.

(** [for x in l: s = body(x, s)], the loop state [s] standing for the local
    variables the body updates. *)
Fixpoint for_in {A S} (l : list A) (body : A -> S -> Py S) (s : S) : Py S :=
  match l with
  | [] => ret s
  | x :: l' => s' ← body x s; for_in l' body s'
  end.

(** ** The script *)

(** [confirm_overwrite(filepath)] *)
Definition confirm_overwrite (filepath : string) : Py bool :=
  found ← path_exists filepath;
  if found : bool then
    answer ← input ("File " +:+ dquote +:+ filepath +:+ dquote
                    +:+ " exists. Overwrite? (y/n): ");
    let response := lower answer in
    ret (response =? "y")%string
  else ret true.

(** The four lists [get_coordinates] builds and returns. *)
Abbreviation joined := (list float * list float * list Z * list string)%type.

(** [get_coordinates(meetings)], with the dict that the global name
    [city_coords] is bound to as [table].  A value of the table is a pair,
    and a non-empty tuple is true in [if coords:], so the test separates
    exactly the missing key ([None]) from the key that is there. *)
Definition get_coordinates_in (table : coord_table)
    (meetings : list (Z * string)) : Py joined :=
  for_in meetings
    (fun '(year, location) '(lats, lons, years, locations) =>
       if (location =? "Virtual due to COVID-19")%string then
         ret (lats, lons, years, locations)
       else
         match table !! location with
         | Some (lat, lon) =>
             ret (lats ++ [lat], lons ++ [lon], years ++ [year],
                  locations ++ [location])
         | None =>
             print ("Coordinates for " +:+ location +:+ " not found.");;
             ret (lats, lons, years, locations)
         end)
    ([], [], [], []).

(** [get_coordinates(meetings)] as the script runs it. *)
Definition get_coordinates (meetings : list (Z * string)) : Py joined :=
  get_coordinates_in city_coords meetings.

(** [plot_meetings(lats, lons, years, locations)].  Arguments are evaluated
    left to right before each call, so a list shorter than [lats] raises
    [IndexError] at its first use in the round that reaches its end. *)
Definition plot_meetings (lats lons : list float) (years : list Z)
    (locations : list string) : Py unit :=
  draw (Figure 15 10);;
  draw (Axes LambertConformal);;
  draw (SetExtent (-125) (-66.5) 20 50 Geodetic);;
  draw (AddFeature LAND None None);;
  draw (AddFeature OCEAN None None);;
  draw (AddFeature BORDERS (Some ":") None);;
  draw (AddFeature LAKES None (Some 0.5%float));;
  draw (AddFeature RIVERS None None);;
  draw (Coastlines "50m");;
  for_in (seq 0 (length lats))
    (fun i 'tt =>
       x ← index lons i; y ← index lats i;
       draw (Plot x y "ro" 5 Geodetic);;
       x ← index lons i; y ← index lats i;
       year ← index years i; location ← index locations i;
       draw (Text (x + 0.5) (y + 0.5) (str_of_int year +:+ ": " +:+ location)
                  Geodetic);;
       if (0 <? i)%nat then
         x ← index lons i; y ← index lats i;
         x' ← index lons (i - 1); y' ← index lats (i - 1);
         draw (Annotate "" (x, y) (x', y') "->" "blue" Geodetic)
       else ret tt)
    tt;;
  draw (Title "Educause Annual Meeting Locations (1999-2024)");;
  show.

(** [argparse.Namespace] as [parse_arguments] returns it. *)
Record namespace : Type := Namespace {
  output : string;
  format : fmt
}.

Section Script.

(** The bytes the rendering engine writes for a figure in a format. *)
Variable encode : list draw_cmd -> fmt -> list Byte.byte.

(** [plt.savefig(path, format=f)]: the file at [path] is created or
    replaced. *)
Definition savefig (path : string) (f : fmt) : Py unit :=
  fun w => (World (stdin w) (stdout w) (<[path := encode (canvas w) f]> (fs w))
                  (canvas w) (displayed w), Ok tt).

(** [main] from the comment "Create the plot" to its end, as a function
    of the four lists that [get_coordinates] returned. *)
Definition main_plot (output_file : string) (args : namespace)
    (lats lons : list float) (years : list Z) (locations : list string)
    : Py unit :=
  draw (Figure 15 10);;
  draw (Axes LambertConformal);;
  draw (SetExtent (-125) (-66.5) 20 50 Geodetic);;
  draw (AddFeature LAND None None);;
  draw (AddFeature OCEAN None None);;
  draw (AddFeature BORDERS (Some ":") None);;
  draw (AddFeature LAKES None (Some 0.5%float));;
  draw (AddFeature RIVERS None None);;
  draw (Coastlines "50m");;
  for_in (seq 0 (length lats))
    (fun i 'tt =>
       x ← index lons i; y ← index lats i;
       draw (Plot x y "ro" 5 Geodetic);;
       x ← index lons i; y ← index lats i;
       year ← index years i; location ← index locations i;
       draw (Text (x + 0.5) (y + 0.5) (str_of_int year +:+ ": " +:+ location)
                  Geodetic);;
       if (0 <? i)%nat then
         x ← index lons i; y ← index lats i;
         x' ← index lons (i - 1); y' ← index lats (i - 1);
         draw (Annotate "" (x, y) (x', y') "->" "blue" Geodetic)
       else ret tt)
    tt;;
  draw (Title "Educause Annual Meeting Locations (1999-2024)");;
  savefig output_file (format args);;
  print ("Map saved to " +:+ output_file).

(** [main()], the result of [parse_arguments()] given as [args]. *)
Definition main (args : namespace) : Py unit :=
  let output_file := output args +:+ "." +:+ fmt_str (format args) in
  confirmed ← confirm_overwrite output_file;
  (if negb confirmed then
     print "Operation cancelled by the user.";;
     sys_exit 0
   else ret tt);;
  '(lats, lons, years, locations) ← get_coordinates meetings;
  main_plot output_file args lats lons years locations.

End Script.

(** ** Vocabulary of the statements *)

(** The city name that [get_coordinates] skips. *)
Definition virtual : string := "Virtual due to COVID-19".

(** The message printed for a city that has no coordinates. *)
Definition diagnostic (location : string) : out_event :=
  Printed ("Coordinates for " +:+ location +:+ " not found.").

(** The four returned lists read side by side: the entry at index [i] is
    [(lats[i], lons[i], years[i], locations[i])]. *)
Definition entries (j : joined) : list (float * float * Z * string) :=
  let '(lats, lons, years, locations) := j in
  zip (zip (zip lats lons) years) locations.

(** The four lists have one length. *)
Definition aligned (j : joined) : Prop :=
  let '(lats, lons, years, locations) := j in
  length lats = length lons /\ length lons = length years
  /\ length years = length locations.

(** The entry a record contributes under [table]: none when its city is
    not a key. *)
Definition entry_of (table : coord_table) (r : Z * string)
    : option (float * float * Z * string) :=
  match table !! r.2 with
  | Some (lat, lon) => Some (lat, lon, r.1, r.2)
  | None => None
  end.

(** The markers among drawing calls, as [(longitude, latitude)]. *)
Definition markers (cmds : list draw_cmd) : list (float * float) :=
  omap (fun c => match c with Plot x y _ _ _ => Some (x, y) | _ => None end)
       cmds.

(** The text labels among drawing calls, as [(x, y, text)]. *)
Definition labels (cmds : list draw_cmd) : list (float * float * string) :=
  omap (fun c => match c with Text x y s _ => Some (x, y, s) | _ => None end)
       cmds.

(** The arrows among drawing calls, as [(tail, head)]: matplotlib draws the
    arrow of [annotate] from [xytext] to [xy], and the style ["->"] puts
    the head at [xy]. *)
Definition arrows (cmds : list draw_cmd)
    : list ((float * float) * (float * float)) :=
  omap (fun c => match c with
                 | Annotate _ xy xytext "->" _ _ => Some (xytext, xy)
                 | _ => None
                 end) cmds.

#[global] Instance float_inhabited : Inhabited float := populate 0%float.

(** The calls that set the map up, before the loop. *)
Definition setup : list draw_cmd :=
  [ Figure 15 10; Axes LambertConformal;
    SetExtent (-125) (-66.5) 20 50 Geodetic;
    AddFeature LAND None None; AddFeature OCEAN None None;
    AddFeature BORDERS (Some ":") None;
    AddFeature LAKES None (Some 0.5%float);
    AddFeature RIVERS None None; Coastlines "50m" ].

(** The calls of round [i] of the loop when [i] is an index of all four
    lists ([l !!! i] is then [l[i]]). *)
Definition round (lats lons : list float) (years : list Z)
    (locations : list string) (i : nat) : list draw_cmd :=
  [ Plot (lons !!! i) (lats !!! i) "ro" 5 Geodetic;
    Text (lons !!! i + 0.5) (lats !!! i + 0.5)
         (str_of_int (years !!! i) +:+ ": " +:+ locations !!! i) Geodetic ]
  ++ (if (0 <? i)%nat
      then [ Annotate "" (lons !!! i, lats !!! i)
                      (lons !!! (i - 1)%nat, lats !!! (i - 1)%nat) "->" "blue"
                      Geodetic ]
      else []).

(** A record that [get_coordinates] reports: its city is not the skipped
    name and is not a key of [table]. *)
Definition reported (table : coord_table) (r : Z * string) : Prop :=
  r.2 <> virtual /\ table !! r.2 = None.

#[global] Instance reported_dec table r : Decision (reported table r).
Proof. unfold reported. apply _. Defined.

(** The messages of a run of the join over [ms], in order. *)
Definition diagnostics (table : coord_table) (ms : list (Z * string))
    : list out_event :=
  (fun r => diagnostic r.2) <$> filter (reported table) ms.

(** The entry the loop appends for a record: none for the skipped name,
    whatever [table] says. *)
Definition appended (table : coord_table) (r : Z * string)
    : option (float * float * Z * string) :=
  if decide (r.2 = virtual) then None else entry_of table r.

(** Entries taken apart into the four lists. *)
Definition lists_of (es : list (float * float * Z * string)) : joined :=
  ((fun e => e.1.1.1) <$> es, (fun e => e.1.1.2) <$> es,
   (fun e => e.1.2) <$> es, (fun e => e.2) <$> es).

(** Everything drawn by a rendering of four lists of one length. *)
Definition rendering (lats lons : list float) (years : list Z)
    (locations : list string) : list draw_cmd :=
  setup ++ flat_map (round lats lons years locations) (seq 0 (length lats))
  ++ [Title "Educause Annual Meeting Locations (1999-2024)"].

(** A computation that only draws: it leaves the rest of the world alone,
    and ends with a value or with [IndexError]. *)
Definition only_draws {A} (m : Py A) : Prop :=
  forall w, exists cmds,
    (exists a, run m w = (drawn w cmds, Ok a))
    \/ run m w = (drawn w cmds, Raise IndexError).

(** Among [cmds] there is one arrow for each index [i] from 1 on, the
    [i]-th of them from the point at [i - 1] to the point at [i]; a point
    is [(longitude, latitude)]. *)
Definition arrows_between_consecutive (lats lons : list float)
    (cmds : list draw_cmd) : Prop :=
  length (arrows cmds) = (length lats - 1)%nat
  /\ forall i x y x' y',
       (1 <= i)%nat ->
       lons !! (i - 1)%nat = Some x' -> lats !! (i - 1)%nat = Some y' ->
       lons !! i = Some x -> lats !! i = Some y ->
       arrows cmds !! (i - 1)%nat = Some ((x', y'), (x, y)).

(** Among [cmds] there is one label for each index [i], the [i]-th of them
    reading [year: city] and placed half a degree up and to the right of
    the point at [i]. *)
Definition labelled (lats lons : list float) (years : list Z)
    (locations : list string) (cmds : list draw_cmd) : Prop :=
  length (labels cmds) = length lats
  /\ forall i x y year city,
       lons !! i = Some x -> lats !! i = Some y ->
       years !! i = Some year -> locations !! i = Some city ->
       labels cmds !! i
       = Some ((x + 0.5)%float, (y + 0.5)%float,
               str_of_int year +:+ ": " +:+ city).

(** The world after [plt.show()] on a figure with [cmds] drawn from [w]. *)
Definition shown (w : world) (cmds : list draw_cmd) : world :=
  World (stdin w) (stdout w) (fs w) (canvas w ++ cmds)
        (displayed w ++ [canvas w ++ cmds]).

(** The world after a figure with [cmds] drawn from [w] was saved as
    [bytes] at [path] and the confirmation printed. *)
Definition saved (w : world) (cmds : list draw_cmd) (path : string)
    (bytes : list Byte.byte) : world :=
  World (stdin w) (stdout w ++ [Printed ("Map saved to " +:+ path)])
        (<[path := bytes]> (fs w)) (canvas w ++ cmds) (displayed w).

(** The name of the output file, as [main] builds it. *)
Definition output_path (args : namespace) : string :=
  output args +:+ "." +:+ fmt_str (format args).

(** The prompt of [confirm_overwrite]. *)
Definition overwrite_prompt (filepath : string) : out_event :=
  Prompted ("File " +:+ dquote +:+ filepath +:+ dquote
            +:+ " exists. Overwrite? (y/n): ").

(** The world after the one line [answer] was read at the prompt and the
    run was cancelled: nothing drawn, no file touched. *)
Definition cancelled (w : world) (filepath : string) (rest : list string)
    : world :=
  World rest
        (stdout w ++ [overwrite_prompt filepath;
                      Printed "Operation cancelled by the user."])
        (fs w) (canvas w) (displayed w).

(** Sample data for the examples: a rendering engine that writes the PNG
    signature, the contents of a file that is already there, and the
    first two joined points. *)
Definition sample_encode (cmds : list draw_cmd) (f : fmt) : list Byte.byte :=
  [Byte.x89; Byte.x50; Byte.x4e; Byte.x47].

Definition sample_old : list Byte.byte := [Byte.x6f; Byte.x6c; Byte.x64].

Definition sample_lats : list float := [33.7701; 36.1627]%float.
Definition sample_lons : list float := [-118.1937; -86.7816]%float.
Definition sample_years : list Z := [1999; 2000].
Definition sample_locations : list string :=
  ["Long Beach, California"; "Nashville, Tennessee"].

(** The index at which the renderer runs out of [lons], [years] or
    [locations]: the length of the shortest of the three. *)
Definition shortest (lons : list float) (years : list Z)
    (locations : list string) : nat :=
  (length lons `min` (length years `min` length locations))%nat.

(** What round [m] draws before it fails, when [m] is an index of [lats]
    but not of all the other lists: the marker if [lons] reaches [m] (the
    label then fails on [years] or [locations]), nothing otherwise. *)
Definition partial_round (lats lons : list float) (m : nat) : list draw_cmd :=
  if (m <? length lons)%nat
  then [ Plot (lons !!! m) (lats !!! m) "ro" 5 Geodetic ]
  else [].

(** A record the join skips without a word. *)
Definition skipped (r : Z * string) : Prop := r.2 = virtual.

#[global] Instance skipped_dec r : Decision (skipped r).
Proof. unfold skipped. apply _. Defined.

Example str_of_int_1999 : str_of_int 1999 = "1999".
Proof. reflexivity. Qed.

Example lower_Y : lower "Yes" = "yes".
Proof. reflexivity. Qed.

Example city_coords_denver :
  city_coords !! "Denver, Colorado" = Some (39.7392, -104.9903)%float.
Proof. vm_compute. reflexivity. Qed.

(** ** Running the monad *)

Lemma run_ret {A} (a : A) w : run (mret a) w = (w, Ok a).
Proof. reflexivity. Qed.

Lemma run_bind {A B} (m : Py A) (k : A -> Py B) w :
  run (m ≫= k) w =
  match run m w with
  | (w', Ok a) => run (k a) w'
  | (w', Raise e) => (w', Raise e)
  | (w', Exit c) => (w', Exit c)
  end.
Proof. reflexivity. Qed.

Lemma run_bind_ok {A B} (m : Py A) (k : A -> Py B) w w' a :
  run m w = (w', Ok a) -> run (m ≫= k) w = run (k a) w'.
Proof. intros H. rewrite run_bind, H. reflexivity. Qed.

Lemma emit_nil w : emit w [] = w.
Proof. destruct w. unfold emit. simpl. by rewrite app_nil_r. Qed.

Lemma emit_emit w a b : emit (emit w a) b = emit w (a ++ b).
Proof. unfold emit. simpl. by rewrite app_assoc. Qed.

Lemma drawn_nil w : drawn w [] = w.
Proof. destruct w. unfold drawn. simpl. by rewrite app_nil_r. Qed.

Lemma drawn_drawn w a b : drawn (drawn w a) b = drawn w (a ++ b).
Proof. unfold drawn. simpl. by rewrite app_assoc. Qed.

(** A loop over [l1 ++ l2] is the loop over [l1] followed by the loop over
    [l2] from the state the first one left. *)
Lemma for_in_app {A S} (l1 l2 : list A) (body : A -> S -> Py S) s w :
  run (for_in (l1 ++ l2) body s) w =
  run (for_in l1 body s ≫= for_in l2 body) w.
Proof.
  revert s w. induction l1 as [|x l1 IH]; intros s w; [reflexivity|].
  simpl. rewrite !run_bind.
  destruct (run (body x s) w) as [w1 [s1|e|c]]; [|reflexivity..].
  rewrite IH, run_bind. reflexivity.
Qed.

(** ** The join *)

Lemma lists_of_snoc es e :
  lists_of (es ++ [e]) =
  let '(lats, lons, years, locations) := lists_of es in
  (lats ++ [e.1.1.1], lons ++ [e.1.1.2], years ++ [e.1.2],
   locations ++ [e.2]).
Proof. unfold lists_of. by rewrite !fmap_app. Qed.

Lemma diagnostics_app table ms1 ms2 :
  diagnostics table (ms1 ++ ms2) = diagnostics table ms1 ++ diagnostics table ms2.
Proof. unfold diagnostics. by rewrite filter_app, fmap_app. Qed.

Lemma diagnostics_cons table r ms :
  diagnostics table (r :: ms) = diagnostics table [r] ++ diagnostics table ms.
Proof. apply (diagnostics_app table [r] ms). Qed.

Lemma diagnostics_skipped table year location :
  location = virtual -> diagnostics table [(year, location)] = [].
Proof.
  intros ->. unfold diagnostics. rewrite filter_cons, decide_False; [done|].
  by intros [? _].
Qed.

Lemma diagnostics_found table year location :
  is_Some (table !! location) -> diagnostics table [(year, location)] = [].
Proof.
  intros [v Hv]. unfold diagnostics. rewrite filter_cons, decide_False; [done|].
  intros [_ H]. simpl in H. congruence.
Qed.

Lemma diagnostics_missing table year location :
  location <> virtual -> table !! location = None ->
  diagnostics table [(year, location)] = [diagnostic location].
Proof.
  intros Hne Hl. unfold diagnostics. by rewrite filter_cons, decide_True.
Qed.

(** What a run of the join does, for any table: it cannot fail, it writes
    the diagnostics and nothing else, and it returns the appended entries. *)
Lemma get_coordinates_in_run table ms w :
  run (get_coordinates_in table ms) w =
  (emit w (diagnostics table ms), Ok (lists_of (omap (appended table) ms))).
Proof.
  revert w. induction ms as [|[year location] ms IH] using rev_ind; intros w.
  { by rewrite emit_nil. }
  unfold get_coordinates_in in *.
  rewrite for_in_app, (run_bind_ok _ _ _ _ _ (IH w)).
  rewrite omap_app, diagnostics_app, <- emit_emit.
  set (w1 := emit w _). set (es := omap _ ms).
  cbn [omap list_omap]. unfold appended at 1. cbn [for_in snd fst].
  rewrite run_bind.
  destruct (String.eqb_spec location "Virtual due to COVID-19") as [Heq|Hne].
  - rewrite decide_True, diagnostics_skipped, emit_nil, app_nil_r by done.
    by destruct (lists_of es) as [[[lats lons] years] locations].
  - rewrite decide_False by done. unfold entry_of. cbn [snd fst].
    destruct (table !! location) as [[lat lon]|] eqn:Hl.
    + rewrite diagnostics_found, emit_nil, lists_of_snoc by (by rewrite Hl).
      by destruct (lists_of es) as [[[lats lons] years] locations].
    + rewrite diagnostics_missing, app_nil_r by done.
      by destruct (lists_of es) as [[[lats lons] years] locations].
Qed.

(** ** Computations that only draw *)

Lemma only_draws_ret {A} (a : A) : only_draws (mret a).
Proof. intros w. exists []. left. exists a. by rewrite drawn_nil. Qed.

Lemma only_draws_draw c : only_draws (draw c).
Proof. intros w. exists [c]. left. by exists tt. Qed.

Lemma only_draws_index {A} (l : list A) i : only_draws (index l i).
Proof.
  intros w. exists []. rewrite drawn_nil. unfold index.
  destruct (l !! i) as [x|]; [left; by exists x | by right].
Qed.

Lemma only_draws_bind {A B} (m : Py A) (k : A -> Py B) :
  only_draws m -> (forall a, only_draws (k a)) -> only_draws (m ≫= k).
Proof.
  intros Hm Hk w. rewrite run_bind.
  destruct (Hm w) as [c1 [[a ->]| ->]].
  - destruct (Hk a (drawn w c1)) as [c2 [[b ->]| ->]]; exists (c1 ++ c2);
      rewrite drawn_drawn; [left; by exists b | by right].
  - exists c1. by right.
Qed.

Lemma only_draws_for_in {A S} (l : list A) (body : A -> S -> Py S) s :
  (forall x s, only_draws (body x s)) -> only_draws (for_in l body s).
Proof.
  intros Hb. revert s. induction l as [|x l IH]; intros s; simpl.
  - apply only_draws_ret.
  - apply only_draws_bind; [apply Hb | apply IH].
Qed.

Create HintDb drawing.
#[local] Hint Resolve only_draws_ret only_draws_draw only_draws_index : drawing.

(** Goals [only_draws m] for a straight-line [m]. *)
Ltac only_draws :=
  repeat first
    [ apply only_draws_bind; [|intros ?]
    | apply only_draws_for_in; intros ? []
    | match goal with |- only_draws (if ?b then _ else _) => destruct b end
    | solve [auto with drawing] ].

(** ** The loop of the renderer *)

Lemma index_lt {A} `{Inhabited A} (l : list A) i :
  (i < length l)%nat -> index l i = mret (l !!! i).
Proof.
  intros Hi. unfold index. by rewrite (list_lookup_lookup_total_lt l i Hi).
Qed.

(** A loop whose round [i] draws [cmds i] draws them round after round. *)
Lemma for_in_rounds {A} (body : A -> unit -> Py unit)
    (cmds : A -> list draw_cmd) (l : list A) w :
  (forall i w, i ∈ l -> run (body i tt) w = (drawn w (cmds i), Ok tt)) ->
  run (for_in l body tt) w = (drawn w (flat_map cmds l), Ok tt).
Proof.
  revert w. induction l as [|x l IH]; intros w Hb; simpl.
  - by rewrite drawn_nil.
  - rewrite run_bind, Hb by left. rewrite IH, drawn_drawn; [done|].
    intros i w' Hi. apply Hb. by right.
Qed.

(** One round of the loop, for an index of all four lists. *)
Ltac round_run :=
  let i := fresh "i" in
  let w := fresh "w" in
  let Hi := fresh "Hi" in
  intros i w Hi; apply elem_of_seq in Hi;
  rewrite !index_lt by lia;
  destruct i;
  cbv [run mbind mret Py_bind Py_ret bind ret draw drawn round Nat.ltb Nat.leb
       canvas stdin stdout fs displayed];
  rewrite <- ?app_assoc; simpl; rewrite ?Nat.sub_0_r; reflexivity.

(** The calls before the loop and the loop itself, run from [w]. *)
Ltac setup_and_loop lats lons years locations :=
  do 9 (rewrite run_bind; cbn [run draw]);
  rewrite run_bind;
  rewrite (for_in_rounds _ (round lats lons years locations)) by round_run;
  rewrite !drawn_drawn; rewrite run_bind; cbn [run draw]; rewrite drawn_drawn.

Lemma plot_meetings_run lats lons years locations w :
  length lons = length lats -> length years = length lats ->
  length locations = length lats ->
  run (plot_meetings lats lons years locations) w =
  (shown w (rendering lats lons years locations), Ok tt).
Proof.
  intros H1 H2 H3. unfold plot_meetings.
  setup_and_loop lats lons years locations.
  unfold rendering, setup. by rewrite <- !app_assoc.
Qed.

Section Saving.

Variable encode : list draw_cmd -> fmt -> list Byte.byte.

Lemma main_plot_run output_file args lats lons years locations w :
  length lons = length lats -> length years = length lats ->
  length locations = length lats ->
  run (main_plot encode output_file args lats lons years locations) w =
  (let cmds := rendering lats lons years locations in
   saved w cmds output_file (encode (canvas w ++ cmds) (format args)), Ok tt).
Proof.
  intros H1 H2 H3. unfold main_plot.
  setup_and_loop lats lons years locations.
  unfold rendering, setup. by rewrite <- !app_assoc.
Qed.

End Saving.

(** ** Facts about the static tables and the returned lists *)

Lemma city_coords_virtual : city_coords !! virtual = None.
Proof. vm_compute. reflexivity. Qed.

Lemma appended_city_coords r : appended city_coords r = entry_of city_coords r.
Proof.
  unfold appended, entry_of. destruct (decide (r.2 = virtual)) as [->|]; [|done].
  by rewrite city_coords_virtual.
Qed.

Lemma get_coordinates_run ms w :
  run (get_coordinates ms) w =
  (emit w (diagnostics city_coords ms),
   Ok (lists_of (omap (entry_of city_coords) ms))).
Proof.
  unfold get_coordinates. rewrite get_coordinates_in_run.
  replace (omap (appended city_coords) ms) with (omap (entry_of city_coords) ms);
    [done|].
  induction ms as [|r ms IH]; [done|].
  cbn [omap list_omap]. fold (omap (entry_of city_coords) ms).
  fold (omap (appended city_coords) ms). by rewrite appended_city_coords, IH.
Qed.

Lemma entries_lists_of es : entries (lists_of es) = es.
Proof.
  induction es as [|[[[lat lon] year] location] es IH]; [done|].
  unfold entries, lists_of in *. simpl. f_equal. exact IH.
Qed.

Lemma aligned_lists_of es : aligned (lists_of es).
Proof. unfold aligned, lists_of. by rewrite !length_fmap. Qed.

Lemma records_of_entries table (ms : list (Z * string)) :
  (fun e => (e.1.2, e.2)) <$> omap (entry_of table) ms =
  filter (fun r => is_Some (table !! r.2)) ms.
Proof.
  induction ms as [|[year location] ms IH]; [done|].
  rewrite filter_cons. unfold entry_of at 1. simpl.
  destruct (table !! location) as [[lat lon]|] eqn:Hl.
  - rewrite decide_True by eauto. simpl. f_equal. exact IH.
  - rewrite decide_False by (by intros [? ?]). exact IH.
Qed.

Lemma zip_years_locations es :
  let '(_, _, years, locations) := lists_of es in
  zip years locations = (fun e => (e.1.2, e.2)) <$> es.
Proof. induction es as [|e es IH]; simpl in *; [done|]. f_equal. exact IH. Qed.

Lemma locations_of_entries table (ms : list (Z * string)) :
  Forall (fun c => is_Some (table !! c))
         ((fun e => e.2) <$> omap (entry_of table) ms).
Proof.
  induction ms as [|[year location] ms IH]; [constructor|].
  simpl. unfold entry_of at 1. simpl.
  destruct (table !! location) as [[lat lon]|] eqn:Hl; [|exact IH].
  simpl. constructor; [by rewrite Hl | exact IH].
Qed.

Lemma omap_appended_None table r (ms : list (Z * string)) :
  appended table r = None -> omap (appended table) (r :: ms) = omap (appended table) ms.
Proof. intros H. cbn [omap list_omap]. by rewrite H. Qed.

Lemma appended_skipped table year : appended table (year, virtual) = None.
Proof. unfold appended. by rewrite decide_True. Qed.

Lemma appended_missing table year c :
  table !! c = None -> appended table (year, c) = None.
Proof.
  intros Hl. unfold appended, entry_of. simpl. rewrite Hl. by case_decide.
Qed.

Lemma get_coordinates_in_app table ms1 ms2 w :
  run (get_coordinates_in table (ms1 ++ ms2)) w =
  (emit w (diagnostics table ms1 ++ diagnostics table ms2),
   Ok (lists_of (omap (appended table) ms1 ++ omap (appended table) ms2))).
Proof. by rewrite get_coordinates_in_run, diagnostics_app, omap_app. Qed.

(** ** The claims about the join *)

(** C1.  Each record of the input whose city is a key of [city_coords]
    gives exactly one entry (latitude, longitude, year, city) of the four
    returned lists, a record whose city is not a key gives none, and the
    entries stand in the order of the records: the entries are the
    [entry_of] of the records, and years and cities are those of the
    records whose city is a key. *)
Theorem join_keeps_present_records (ms : list (Z * string)) (w : world) :
  exists w' lats lons years locations,
    run (get_coordinates ms) w = (w', Ok (lats, lons, years, locations))
    /\ entries (lats, lons, years, locations) = omap (entry_of city_coords) ms
    /\ zip years locations = filter (fun r => is_Some (city_coords !! r.2)) ms
    /\ length lats = length years /\ length lons = length years
    /\ length locations = length years.
Proof.
  pose proof (entries_lists_of (omap (entry_of city_coords) ms)) as He.
  pose proof (aligned_lists_of (omap (entry_of city_coords) ms)) as Ha.
  pose proof (zip_years_locations (omap (entry_of city_coords) ms)) as Hz.
  rewrite records_of_entries in Hz.
  destruct (lists_of _) as [[[lats lons] years] locations] eqn:E.
  exists (emit w (diagnostics city_coords ms)), lats, lons, years, locations.
  rewrite get_coordinates_run, E. destruct Ha as (? & ? & ?).
  repeat split; [done|done|congruence..].
Qed.

(** C2, as the code has it.  The run of the join cannot fail; it writes one
    diagnostic for each record that is [reported], in the order of the
    records, and nothing else; and no returned entry carries a city that is
    not a key of the table.  A record is reported when its city is not a
    key and is not the skipped name. *)
Theorem join_reports_missing_cities (ms : list (Z * string)) (w : world) :
  exists lats lons years locations,
    run (get_coordinates ms) w =
      (emit w ((fun r => diagnostic r.2) <$> filter (reported city_coords) ms),
       Ok (lats, lons, years, locations))
    /\ Forall (fun c => is_Some (city_coords !! c)) locations.
Proof.
  pose proof (locations_of_entries city_coords ms) as Hl.
  rewrite get_coordinates_run. unfold lists_of in *.
  eexists _, _, _, _. split; [reflexivity | exact Hl].
Qed.

(** C2 fails as stated: the city of the record below is not a key of the
    table, and the join writes no diagnostic for it. *)
Lemma join_virtual_not_reported :
  let ms := [(2020, "Virtual due to COVID-19")] in
  let w := World [] [] ∅ [] [] in
  city_coords !! "Virtual due to COVID-19" = None
  /\ run (get_coordinates ms) w = (w, Ok ([], [], [], []))
  /\ diagnostic "Virtual due to COVID-19" ∉ stdout (run (get_coordinates ms) w).1.
Proof.
  split; [vm_compute; reflexivity|]. split; [reflexivity|].
  simpl. apply not_elem_of_nil.
Qed.

(** C3.  A record whose city is "Virtual due to COVID-19" leaves no trace:
    with it or without it the join returns the same lists and writes the
    same output, under every table, also one that has this name as a key,
    so the record is dropped before the table is consulted.  A record
    whose city [c] is any other name that is not a key adds the diagnostic
    for [c], at its place among the diagnostics. *)
Theorem join_skips_virtual (table : coord_table) (pre post : list (Z * string))
    (year : Z) (c : string) (w : world) :
  c <> "Virtual due to COVID-19" -> table !! c = None ->
  run (get_coordinates_in table
         (pre ++ (year, "Virtual due to COVID-19") :: post)) w
  = run (get_coordinates_in table (pre ++ post)) w
  /\ exists before after j,
       run (get_coordinates_in table (pre ++ post)) w
       = (emit w (before ++ after), Ok j)
       /\ run (get_coordinates_in table (pre ++ (year, c) :: post)) w
          = (emit w (before ++ diagnostic c :: after), Ok j).
Proof.
  intros Hc Hl. split.
  - rewrite !get_coordinates_in_app, diagnostics_cons.
    rewrite (diagnostics_skipped table year "Virtual due to COVID-19" eq_refl).
    by rewrite (omap_appended_None _ _ _ (appended_skipped table year)).
  - exists (diagnostics table pre), (diagnostics table post).
    eexists. split; [apply get_coordinates_in_app|].
    rewrite get_coordinates_in_app, diagnostics_cons.
    rewrite (diagnostics_missing table year c Hc Hl).
    by rewrite (omap_appended_None _ _ _ (appended_missing table year c Hl)).
Qed.

Lemma join_skips_virtual_witness :
  let table := <["Virtual due to COVID-19" := (0, 0)%float]> city_coords in
  let w := World [] [] ∅ [] [] in
  run (get_coordinates_in table
         ([(2019, "Chicago, Illinois")]
          ++ (2020, "Virtual due to COVID-19")
          :: [(2021, "Philadelphia, Pennsylvania")])) w
  = run (get_coordinates_in table
           ([(2019, "Chicago, Illinois")]
            ++ [(2021, "Philadelphia, Pennsylvania")])) w
  /\ exists before after j,
       run (get_coordinates_in table
              ([(2019, "Chicago, Illinois")]
               ++ [(2021, "Philadelphia, Pennsylvania")])) w
       = (emit w (before ++ after), Ok j)
       /\ run (get_coordinates_in table
                 ([(2019, "Chicago, Illinois")]
                  ++ (2020, "Nowhere, Nowhere")
                  :: [(2021, "Philadelphia, Pennsylvania")])) w
          = (emit w (before ++ diagnostic "Nowhere, Nowhere" :: after), Ok j).
Proof.
  intros table w.
  apply (join_skips_virtual table [(2019, "Chicago, Illinois")]
           [(2021, "Philadelphia, Pennsylvania")] 2020 "Nowhere, Nowhere" w).
  - discriminate.
  - vm_compute. reflexivity.
Defined.

(** C4.  The four lists returned by the join have one length, whatever the
    list of records. *)
Theorem join_lists_equal_length (ms : list (Z * string)) (w : world) :
  exists w' lats lons years locations,
    run (get_coordinates ms) w = (w', Ok (lats, lons, years, locations))
    /\ length lats = length lons /\ length lons = length years
    /\ length years = length locations.
Proof.
  rewrite get_coordinates_run.
  pose proof (aligned_lists_of (omap (entry_of city_coords) ms)) as Ha.
  destruct (lists_of _) as [[[lats lons] years] locations].
  by exists (emit w (diagnostics city_coords ms)), lats, lons, years, locations.
Qed.

(** C8.  The join run twice in a row on the same records returns the same
    four lists both times (and writes the same diagnostics both times): it
    reads nothing that a run changes. *)
Theorem join_twice_same_result (ms : list (Z * string)) (w : world) :
  exists evs j,
    run (get_coordinates ms) w = (emit w evs, Ok j)
    /\ run (get_coordinates ms) (emit w evs) = (emit (emit w evs) evs, Ok j).
Proof.
  exists (diagnostics city_coords ms), (lists_of (omap (entry_of city_coords) ms)).
  by rewrite !get_coordinates_run.
Qed.

(** ** What a rendering contains *)

Lemma omap_flat_map {A B C} (f : B -> option C) (g : A -> list B) (l : list A) :
  omap f (flat_map g l) = flat_map (fun x => omap f (g x)) l.
Proof.
  induction l as [|x l IH]; [done|]. simpl. rewrite omap_app. f_equal. exact IH.
Qed.

Lemma flat_map_singleton {A B} (f : A -> B) (l : list A) :
  flat_map (fun x => [f x]) l = f <$> l.
Proof. induction l as [|x l IH]; [done|]. simpl. by f_equal. Qed.

Lemma flat_map_positive_from {B} (f : nat -> B) (k n : nat) :
  (0 < k)%nat ->
  flat_map (fun i => if (0 <? i)%nat then [f i] else []) (seq k n)
  = f <$> seq k n.
Proof.
  revert k. induction n as [|n IH]; intros k Hk; [done|].
  cbn [seq flat_map fmap list_fmap]. rewrite IH by lia.
  destruct k; [lia | done].
Qed.

Lemma flat_map_positive {B} (f : nat -> B) (n : nat) :
  flat_map (fun i => if (0 <? i)%nat then [f i] else []) (seq 0 n)
  = f <$> seq 1 (n - 1).
Proof.
  destruct n as [|n]; [done|].
  cbn [seq flat_map]. rewrite flat_map_positive_from by lia.
  by rewrite Nat.sub_succ, Nat.sub_0_r.
Qed.

Lemma markers_rendering lats lons years locations :
  markers (rendering lats lons years locations)
  = (fun i => (lons !!! i, lats !!! i)) <$> seq 0 (length lats).
Proof.
  unfold rendering, markers. rewrite !omap_app, omap_flat_map.
  rewrite <- flat_map_singleton, app_nil_r. simpl. apply flat_map_ext.
  intros i. unfold round. by destruct (0 <? i)%nat.
Qed.

Lemma labels_rendering lats lons years locations :
  labels (rendering lats lons years locations)
  = (fun i => (lons !!! i + 0.5, lats !!! i + 0.5,
               str_of_int (years !!! i) +:+ ": " +:+ locations !!! i)%float)
    <$> seq 0 (length lats).
Proof.
  unfold rendering, labels. rewrite !omap_app, omap_flat_map.
  rewrite <- flat_map_singleton, app_nil_r. simpl. apply flat_map_ext.
  intros i. unfold round. by destruct (0 <? i)%nat.
Qed.

Lemma arrows_rendering lats lons years locations :
  arrows (rendering lats lons years locations)
  = (fun i => ((lons !!! (i - 1)%nat, lats !!! (i - 1)%nat),
               (lons !!! i, lats !!! i)))
    <$> seq 1 (length lats - 1).
Proof.
  unfold rendering, arrows. rewrite !omap_app, omap_flat_map.
  rewrite <- flat_map_positive, app_nil_r. simpl. apply flat_map_ext.
  intros i. unfold round. by destruct (0 <? i)%nat.
Qed.

Lemma rendering_arrows lats lons years locations :
  arrows_between_consecutive lats lons (rendering lats lons years locations).
Proof.
  unfold arrows_between_consecutive. rewrite arrows_rendering.
  split; [by rewrite length_fmap, length_seq|].
  intros i x y x' y' Hi Hx' Hy' Hx Hy.
  pose proof (lookup_lt_Some _ _ _ Hy) as Hlt.
  rewrite list_lookup_fmap, lookup_seq_lt by lia.
  replace (1 + (i - 1))%nat with i by lia. simpl.
  by rewrite (list_lookup_total_correct _ _ _ Hx), (list_lookup_total_correct _ _ _ Hy),
    (list_lookup_total_correct _ _ _ Hx'), (list_lookup_total_correct _ _ _ Hy').
Qed.

Lemma rendering_labelled lats lons years locations :
  labelled lats lons years locations (rendering lats lons years locations).
Proof.
  unfold labelled. rewrite labels_rendering.
  split; [by rewrite length_fmap, length_seq|].
  intros i x y year city Hx Hy Hyear Hcity.
  pose proof (lookup_lt_Some _ _ _ Hy) as Hlt.
  rewrite list_lookup_fmap, lookup_seq_lt by lia. simpl.
  by rewrite (list_lookup_total_correct _ _ _ Hx), (list_lookup_total_correct _ _ _ Hy),
    (list_lookup_total_correct _ _ _ Hyear), (list_lookup_total_correct _ _ _ Hcity).
Qed.

Lemma run_draw_bind {B} c (k : unit -> Py B) w :
  run (draw c ≫= k) w = run (k tt) (drawn w [c]).
Proof. reflexivity. Qed.

(** ** The overwrite prompt *)

Lemma lower_ascii_y a :
  lower_ascii a = "y"%char -> a = "y"%char \/ a = "Y"%char.
Proof.
  destruct a as [[] [] [] [] [] [] [] []]; vm_compute; intros H;
    first [discriminate H | by left | by right].
Qed.

Lemma lower_eq_y s : lower s = "y" <-> s = "y" \/ s = "Y".
Proof.
  split; [|by intros [->| ->]].
  destruct s as [|a [|b s]]; simpl; intros H; [discriminate H| |discriminate H].
  injection H as H. by destruct (lower_ascii_y a H) as [->| ->]; [left|right].
Qed.

Lemma confirm_overwrite_absent filepath w :
  fs w !! filepath = None -> run (confirm_overwrite filepath) w = (w, Ok true).
Proof.
  intros Hf. unfold confirm_overwrite. rewrite run_bind.
  unfold path_exists at 1. cbn [run]. rewrite Hf.
  rewrite bool_decide_eq_false_2 by (by intros [? ?]). reflexivity.
Qed.

Lemma confirm_overwrite_present filepath w data answer rest :
  fs w !! filepath = Some data -> stdin w = answer :: rest ->
  run (confirm_overwrite filepath) w =
  (World rest (stdout w ++ [overwrite_prompt filepath]) (fs w) (canvas w)
         (displayed w),
   Ok (lower answer =? "y")%string).
Proof.
  intros Hf Hin. unfold confirm_overwrite. rewrite run_bind.
  unfold path_exists at 1. cbn [run]. rewrite Hf.
  rewrite bool_decide_eq_true_2 by eauto.
  rewrite run_bind. unfold input, run. rewrite Hin. reflexivity.
Qed.

(** The join over the static tables: no diagnostic, 25 entries. *)
Lemma get_coordinates_meetings w :
  exists lats lons years locations,
    run (get_coordinates meetings) w = (w, Ok (lats, lons, years, locations))
    /\ length lats = 25%nat /\ length lons = 25%nat
    /\ length years = 25%nat /\ length locations = 25%nat
    /\ length (entries (lats, lons, years, locations)) = 25%nat.
Proof.
  rewrite get_coordinates_run.
  assert (diagnostics city_coords meetings = []) as -> by (vm_compute; reflexivity).
  rewrite emit_nil. unfold lists_of. eexists _, _, _, _.
  split; [reflexivity|]. repeat split; vm_compute; reflexivity.
Qed.

Lemma run_print_bind {B} line (k : unit -> Py B) w :
  run (print line ≫= k) w = run (k tt) (emit w [Printed line]).
Proof. reflexivity. Qed.

(** ** The claims about the renderer and the whole run *)

Section Claims.

Variable encode : list draw_cmd -> fmt -> list Byte.byte.

(** C7.  On four lists of one length [n], the renderer (the function
    [plot_meetings] and the same lines inside [main]) ends without an
    error, and what it drew holds, for each index [i] from 1 to [n-1],
    an arrow from point [i-1] to point [i], and for each index [i] from
    0 to [n-1] a label reading [year: city] at the point's longitude and
    latitude plus 0.5 each. *)
Theorem renderer_arrows_and_labels (output_file : string) (args : namespace)
    (lats lons : list float) (years : list Z) (locations : list string)
    (w : world) :
  length lons = length lats -> length years = length lats ->
  length locations = length lats ->
  exists cmds,
    run (plot_meetings lats lons years locations) w = (shown w cmds, Ok tt)
    /\ run (main_plot encode output_file args lats lons years locations) w
       = (saved w cmds output_file (encode (canvas w ++ cmds) (format args)),
          Ok tt)
    /\ arrows_between_consecutive lats lons cmds
    /\ labelled lats lons years locations cmds.
Proof.
  intros H1 H2 H3. exists (rendering lats lons years locations).
  split; [by apply plot_meetings_run|].
  split; [by apply main_plot_run|].
  split; [apply rendering_arrows | apply rendering_labelled].
Qed.

(** C9.  The join ends with its four lists for every input, also when
    they come out empty (no record, or only records without
    coordinates); and the renderer on four empty lists ends without an
    error, having drawn the map set-up and the title and no marker, no
    label and no arrow. *)
Theorem join_and_empty_rendering_never_fail (ms : list (Z * string))
    (output_file : string) (args : namespace) (w : world) :
  (exists w' j, run (get_coordinates ms) w = (w', Ok j))
  /\ run (get_coordinates []) w = (w, Ok ([], [], [], []))
  /\ run (get_coordinates [(2025, "Nowhere, Nowhere")]) w
     = (emit w [diagnostic "Nowhere, Nowhere"], Ok ([], [], [], []))
  /\ exists cmds,
       run (plot_meetings [] [] [] []) w = (shown w cmds, Ok tt)
       /\ run (main_plot encode output_file args [] [] [] []) w
          = (saved w cmds output_file (encode (canvas w ++ cmds) (format args)),
             Ok tt)
       /\ cmds = setup ++ [Title "Educause Annual Meeting Locations (1999-2024)"]
       /\ markers cmds = [] /\ labels cmds = [] /\ arrows cmds = [].
Proof.
  split; [rewrite get_coordinates_run; eauto|].
  split; [by rewrite get_coordinates_run, emit_nil|].
  split; [by rewrite get_coordinates_run|].
  exists (rendering [] [] [] []).
  split; [by apply plot_meetings_run|].
  split; [by apply main_plot_run|]. done.
Qed.

(** C10.  On any four lists, [plot_meetings] and the rendering lines of
    [main] make the same drawing calls in the same order.  Either both
    reach the end of the drawing, and then the one shows the figure and
    the other saves it and prints the confirmation; or both stop with
    [IndexError] at the same call (a list shorter than [lats]), in the
    same world. *)
Theorem plot_meetings_matches_main (output_file : string) (args : namespace)
    (lats lons : list float) (years : list Z) (locations : list string)
    (w : world) :
  exists cmds,
    (run (plot_meetings lats lons years locations) w = (shown w cmds, Ok tt)
     /\ run (main_plot encode output_file args lats lons years locations) w
        = (saved w cmds output_file (encode (canvas w ++ cmds) (format args)),
           Ok tt))
    \/ (run (plot_meetings lats lons years locations) w
        = (drawn w cmds, Raise IndexError)
        /\ run (main_plot encode output_file args lats lons years locations) w
           = (drawn w cmds, Raise IndexError)).
Proof.
  unfold plot_meetings, main_plot. rewrite !run_draw_bind, !drawn_drawn.
  match goal with
  | |- context [run (for_in ?l ?b tt ≫= _) ?w0] =>
      assert (only_draws (for_in l b tt)) as Hd by only_draws;
      destruct (Hd w0) as [c [[[] Hc]|Hc]]
  end.
  - rewrite !(run_bind_ok _ _ _ _ _ Hc), !run_draw_bind, !drawn_drawn.
    eexists. left. split; reflexivity.
  - rewrite !run_bind, !Hc, !drawn_drawn. eexists. right. split; reflexivity.
Qed.

(** C6.  Every city of the 25-entry [meetings] table has coordinates, the
    join of the table gives 25 entries and no diagnostic, and a full run
    of [main] (the output file is not there yet, or the user answers
    yes) ends normally having drawn 25 markers and 24 arrows. *)
Theorem full_run_25_points_24_arrows (args : namespace) (w : world) :
  fs w !! output_path args = None
  \/ (exists answer rest, stdin w = answer :: rest /\ lower answer = "y") ->
  Forall (fun r => is_Some (city_coords !! r.2)) meetings
  /\ length meetings = 25%nat
  /\ (exists j, run (get_coordinates meetings) w = (w, Ok j)
                /\ length (entries j) = 25%nat)
  /\ exists w' cmds,
       run (main encode args) w = (w', Ok tt)
       /\ canvas w' = canvas w ++ cmds
       /\ length (markers cmds) = 25%nat
       /\ length (arrows cmds) = 24%nat.
Proof.
  intros Hrun.
  split; [by apply Forall_forall; intros r Hr; vm_compute in Hr;
          set_unfold; destruct_or!; subst; vm_compute; eauto|].
  split; [reflexivity|].
  split.
  { destruct (get_coordinates_meetings w)
      as (lats & lons & years & locations & Hj & _ & _ & _ & _ & He).
    by exists (lats, lons, years, locations). }
  assert (exists w1, run (confirm_overwrite (output_path args)) w = (w1, Ok true)
                     /\ canvas w1 = canvas w) as (w1 & Hc & Hw1).
  { destruct (fs w !! output_path args) as [data|] eqn:Hf.
    - destruct Hrun as [?|(answer & rest & Hin & Hy)]; [done|].
      eexists. rewrite (confirm_overwrite_present _ _ _ _ _ Hf Hin), Hy. done.
    - exists w. by rewrite confirm_overwrite_absent. }
  destruct (get_coordinates_meetings w1)
    as (lats & lons & years & locations & Hj & H1 & H2 & H3 & H4 & _).
  unfold main. fold (output_path args).
  rewrite (run_bind_ok _ _ _ _ _ Hc). cbn [negb].
  rewrite run_bind, run_ret, (run_bind_ok _ _ _ _ _ Hj).
  rewrite main_plot_run by congruence.
  eexists _, (rendering lats lons years locations).
  split; [reflexivity|]. split; [by rewrite <- Hw1|].
  rewrite markers_rendering, arrows_rendering, !length_fmap, !length_seq, H1.
  done.
Qed.

(** C5, as the code has it.  When the output file exists and the line
    read at the prompt is neither [y] nor [Y], [main] prints the
    cancellation message and exits with status 0; nothing was drawn, no
    diagnostic of the join was printed, no figure was shown, and the
    files are as they were, so the output file still has its contents. *)
Theorem declined_overwrite_cancels (args : namespace) (w : world)
    (data : list Byte.byte) (answer : string) (rest : list string) :
  fs w !! output_path args = Some data -> stdin w = answer :: rest ->
  answer <> "y" -> answer <> "Y" ->
  run (main encode args) w = (cancelled w (output_path args) rest, Exit 0)
  /\ fs (cancelled w (output_path args) rest) !! output_path args = Some data.
Proof.
  intros Hf Hin Hy HY. split; [|exact Hf].
  unfold main. fold (output_path args).
  rewrite (run_bind_ok _ _ _ _ _ (confirm_overwrite_present _ _ _ _ _ Hf Hin)).
  assert ((lower answer =? "y")%string = false) as ->.
  { apply String.eqb_neq. rewrite lower_eq_y. by intros [?|?]. }
  cbn [negb]. rewrite run_bind, run_print_bind.
  unfold sys_exit, run, cancelled, emit. cbn [stdin stdout fs canvas displayed].
  by rewrite <- app_assoc.
Qed.

End Claims.

(** ** The theorems at concrete inputs *)

Lemma renderer_arrows_and_labels_witness :
  let w := World [] [] ∅ [] [] in
  length sample_lons = length sample_lats
  /\ length sample_years = length sample_lats
  /\ length sample_locations = length sample_lats
  /\ exists cmds,
       run (plot_meetings sample_lats sample_lons sample_years sample_locations) w
       = (shown w cmds, Ok tt)
       /\ run (main_plot sample_encode "map.png" (Namespace "map" png)
                 sample_lats sample_lons sample_years sample_locations) w
          = (saved w cmds "map.png" (sample_encode (canvas w ++ cmds) png), Ok tt)
       /\ arrows_between_consecutive sample_lats sample_lons cmds
       /\ labelled sample_lats sample_lons sample_years sample_locations cmds.
Proof.
  intros w. split; [reflexivity|]. split; [reflexivity|]. split; [reflexivity|].
  apply (renderer_arrows_and_labels sample_encode "map.png" (Namespace "map" png)
           sample_lats sample_lons sample_years sample_locations w);
    reflexivity.
Defined.

Lemma full_run_25_points_24_arrows_witness :
  let args := Namespace "educause_meetings_map" pdf in
  let w := World [] [] ∅ [] [] in
  fs w !! output_path args = None
  /\ Forall (fun r => is_Some (city_coords !! r.2)) meetings
  /\ length meetings = 25%nat
  /\ (exists j, run (get_coordinates meetings) w = (w, Ok j)
                /\ length (entries j) = 25%nat)
  /\ exists w' cmds,
       run (main sample_encode args) w = (w', Ok tt)
       /\ canvas w' = canvas w ++ cmds
       /\ length (markers cmds) = 25%nat
       /\ length (arrows cmds) = 24%nat.
Proof.
  intros args w. split; [reflexivity|].
  apply (full_run_25_points_24_arrows sample_encode args w).
  left. reflexivity.
Defined.

Lemma declined_overwrite_cancels_witness :
  let args := Namespace "map" png in
  let w := World ["n"] [] {[ "map.png" := sample_old ]} [] [] in
  fs w !! output_path args = Some sample_old
  /\ stdin w = ["n"]
  /\ run (main sample_encode args) w = (cancelled w (output_path args) [], Exit 0)
  /\ fs (cancelled w (output_path args) []) !! output_path args = Some sample_old.
Proof.
  intros args w.
  assert (fs w !! output_path args = Some sample_old) as Hf
    by (vm_compute; reflexivity).
  split; [exact Hf|]. split; [reflexivity|].
  apply (declined_overwrite_cancels sample_encode args w sample_old "n" [] Hf);
    [reflexivity | discriminate | discriminate].
Defined.

(** C5 fails as stated: the answer [Y] is not [y], yet the run goes on; it
    prints no cancellation message, draws the whole map (9 calls of
    set-up, 25 markers, 25 labels, 24 arrows and the title) and replaces
    the file that was there. *)
Lemma capital_Y_confirms_overwrite :
  let args := Namespace "map" png in
  let w := World ["Y"] [] {[ "map.png" := sample_old ]} [] [] in
  let w' := (run (main sample_encode args) w).1 in
  fs w !! output_path args = Some sample_old
  /\ stdin w = ["Y"] /\ "Y" <> "y"
  /\ (run (main sample_encode args) w).2 = Ok tt
  /\ stdout w' = [overwrite_prompt "map.png"; Printed "Map saved to map.png"]
  /\ length (canvas w') = 84%nat
  /\ fs w' !! "map.png" = Some (sample_encode (canvas w') png)
  /\ fs w' !! "map.png" <> Some sample_old.
Proof.
  intros args w w'. subst w'.
  repeat split; try (vm_compute; reflexivity); [discriminate|].
  vm_compute. discriminate.
Qed.


(** ** Further properties of the join *)

Lemma join_accounting table (ms : list (Z * string)) :
  (length (omap (appended table) ms) + length (diagnostics table ms)
   + length (filter skipped ms) = length ms)%nat.
Proof.
  induction ms as [|[year location] ms IH]; [done|].
  rewrite diagnostics_cons, length_app, filter_cons.
  destruct (decide (location = virtual)) as [->|Hne].
  - rewrite (omap_appended_None _ _ _ (appended_skipped table year)).
    rewrite (diagnostics_skipped table year virtual eq_refl).
    rewrite decide_True by done. simpl. lia.
  - rewrite (decide_False (P := skipped _)) by done.
    destruct (table !! location) as [[lat lon]|] eqn:Hl.
    + rewrite diagnostics_found by (by rewrite Hl).
      cbn [omap list_omap]. unfold appended at 1, entry_of.
      rewrite decide_False by done. cbn [fst snd]. rewrite Hl.
      fold (omap (appended table) ms). simpl. lia.
    + rewrite (omap_appended_None _ _ _ (appended_missing table year _ Hl)).
      rewrite diagnostics_missing by done. simpl. lia.
Qed.

Lemma lists_of_app es1 es2 :
  lists_of (es1 ++ es2) =
  let '(lats1, lons1, years1, locations1) := lists_of es1 in
  let '(lats2, lons2, years2, locations2) := lists_of es2 in
  (lats1 ++ lats2, lons1 ++ lons2, years1 ++ years2, locations1 ++ locations2).
Proof. unfold lists_of. by rewrite !fmap_app. Qed.

Lemma appended_Some table r e :
  appended table r = Some e ->
  r.2 <> virtual /\ table !! r.2 = Some (e.1.1.1, e.1.1.2)
  /\ e.1.2 = r.1 /\ e.2 = r.2.
Proof.
  unfold appended, entry_of. case_decide; [done|].
  destruct (table !! r.2) as [[lat lon]|]; [|done].
  intros [= <-]. done.
Qed.

Lemma length_omap_appended table (ms : list (Z * string)) :
  (length (omap (appended table) ms) <= length ms)%nat.
Proof. pose proof (join_accounting table ms). lia. Qed.

Lemma omap_appended_full table (ms : list (Z * string)) :
  length (omap (appended table) ms) = length ms
  <-> Forall (fun r => r.2 <> virtual /\ is_Some (table !! r.2)) ms.
Proof.
  induction ms as [|r ms IH]; [by split; [constructor|]|].
  rewrite Forall_cons, <- IH. cbn [omap list_omap length].
  fold (omap (appended table) ms).
  pose proof (length_omap_appended table ms) as Hle.
  destruct (appended table r) as [e|] eqn:He.
  - apply appended_Some in He as (Hne & Hl & _). cbn [length].
    split; [intros [= ->]; by rewrite Hl|]. by intros [_ ->].
  - split; [lia|]. intros [[Hne [v Hv]] _]. exfalso.
    unfold appended, entry_of in He. rewrite decide_False, Hv in He by done.
    by destruct v.
Qed.

Lemma omap_appended_all table (ms : list (Z * string)) :
  Forall (fun r => r.2 <> virtual /\ is_Some (table !! r.2)) ms ->
  diagnostics table ms = []
  /\ (fun e => e.1.2) <$> omap (appended table) ms = ms.*1
  /\ (fun e => e.2) <$> omap (appended table) ms = ms.*2.
Proof.
  induction 1 as [|[year location] ms [Hne [[lat lon] Hl]] _ (IHd & IHy & IHl)];
    [done|].
  cbn [fst snd] in Hne, Hl.
  rewrite diagnostics_cons, IHd, diagnostics_found by (by rewrite Hl).
  assert (appended table (year, location) = Some (lat, lon, year, location))
    as Ha.
  { unfold appended, entry_of. rewrite decide_False by done.
    cbn [fst snd]. by rewrite Hl. }
  cbn [omap list_omap]. fold (omap (appended table) ms). rewrite Ha.
  cbn [fmap list_fmap fst snd].
  split; [done|]. split; f_equal; assumption.
Qed.

(** X1.  The join of a concatenation is the concatenation of the joins:
    joining [ms1] and then, in the world this leaves, [ms2], ends in the
    same world as joining [ms1 ++ ms2], and the four lists of the latter
    are those of the two runs appended. *)
Theorem join_of_concatenation (table : coord_table)
    (ms1 ms2 : list (Z * string)) (w : world) :
  exists w1 w2 lats1 lons1 years1 locations1 lats2 lons2 years2 locations2,
    run (get_coordinates_in table ms1) w
    = (w1, Ok (lats1, lons1, years1, locations1))
    /\ run (get_coordinates_in table ms2) w1
       = (w2, Ok (lats2, lons2, years2, locations2))
    /\ run (get_coordinates_in table (ms1 ++ ms2)) w
       = (w2, Ok (lats1 ++ lats2, lons1 ++ lons2, years1 ++ years2,
                  locations1 ++ locations2)).
Proof.
  rewrite get_coordinates_in_app, <- emit_emit, lists_of_app.
  destruct (lists_of (omap (appended table) ms1))
    as [[[lats1 lons1] years1] locations1] eqn:E1.
  destruct (lists_of (omap (appended table) ms2))
    as [[[lats2 lons2] years2] locations2] eqn:E2.
  eexists _, _, lats1, lons1, years1, locations1, lats2, lons2, years2, locations2.
  rewrite !get_coordinates_in_run, E1, E2. done.
Qed.

(** X2.  Every record is accounted for exactly once: the number of
    returned entries, the number of diagnostics written and the number of
    records named "Virtual due to COVID-19" add up to the number of
    records. *)
Theorem join_accounts_for_every_record (table : coord_table)
    (ms : list (Z * string)) (w : world) :
  exists evs lats lons years locations,
    run (get_coordinates_in table ms) w
    = (emit w evs, Ok (lats, lons, years, locations))
    /\ (length lats + length evs
        + length (filter (fun r => r.2 = "Virtual due to COVID-19") ms)
        = length ms)%nat.
Proof.
  rewrite get_coordinates_in_run. eexists _, _, _, _, _.
  split; [reflexivity|]. rewrite length_fmap. apply join_accounting.
Qed.

(** X3.  The join returns as many entries as there are records exactly
    when every record has a city that is a key of the table and is not the
    skipped name; it then writes nothing, and the years and cities it
    returns are those of the records. *)
Theorem join_lossless_iff_complete (table : coord_table)
    (ms : list (Z * string)) (w : world) :
  exists w' lats lons years locations,
    run (get_coordinates_in table ms) w
    = (w', Ok (lats, lons, years, locations))
    /\ (length lats = length ms
        <-> Forall (fun r => r.2 <> "Virtual due to COVID-19"
                             /\ is_Some (table !! r.2)) ms)
    /\ (length lats = length ms ->
        w' = w /\ years = ms.*1 /\ locations = ms.*2).
Proof.
  rewrite get_coordinates_in_run. eexists _, _, _, _, _.
  split; [reflexivity|]. rewrite length_fmap.
  split; [apply omap_appended_full|].
  intros Hlen. apply omap_appended_full, omap_appended_all in Hlen
    as (-> & Hy & Hl).
  by rewrite emit_nil.
Qed.

(** X4.  Whatever the table, every returned entry is backed by it: at each
    index the city is a key of the table, the coordinates are the ones the
    table gives for it, the city is not the skipped name, and the pair of
    year and city is a record of the input. *)
Theorem join_entries_come_from_table (table : coord_table)
    (ms : list (Z * string)) (w : world) :
  exists w' lats lons years locations,
    run (get_coordinates_in table ms) w
    = (w', Ok (lats, lons, years, locations))
    /\ forall i lat lon year c,
         lats !! i = Some lat -> lons !! i = Some lon ->
         years !! i = Some year -> locations !! i = Some c ->
         table !! c = Some (lat, lon)
         /\ c <> "Virtual due to COVID-19" /\ (year, c) ∈ ms.
Proof.
  rewrite get_coordinates_in_run. eexists _, _, _, _, _.
  split; [reflexivity|]. intros i lat lon year c.
  rewrite !list_lookup_fmap.
  destruct (omap (appended table) ms !! i) as [e|] eqn:He; [|done].
  simpl. intros [= <-] [= <-] [= <-] [= <-].
  apply list_elem_of_lookup_2, list_elem_of_omap in He as ([y l] & Hin & Ha).
  apply appended_Some in Ha as (Hne & Hl & Hy & Hc).
  simpl in *. subst. done.
Qed.

(** ** Further properties of the renderer *)

Lemma index_ge {A} (l : list A) i :
  (length l <= i)%nat -> index l i = raise IndexError.
Proof. intros Hi. unfold index. by rewrite (lookup_ge_None_2 l i Hi). Qed.

(** A loop whose rounds over [l1] draw and whose next round fails stops
    there, with what that round drew before it failed. *)
Lemma for_in_fails {A} (body : A -> unit -> Py unit)
    (cmds : A -> list draw_cmd) (l1 l2 : list A) (x : A)
    (partial : list draw_cmd) (e : exn) w :
  (forall i w, i ∈ l1 -> run (body i tt) w = (drawn w (cmds i), Ok tt)) ->
  (forall w, run (body x tt) w = (drawn w partial, Raise e)) ->
  run (for_in (l1 ++ x :: l2) body tt) w
  = (drawn w (flat_map cmds l1 ++ partial), Raise e).
Proof.
  intros H1 Hx. rewrite for_in_app, run_bind, (for_in_rounds _ cmds) by done.
  cbn [for_in]. rewrite run_bind, Hx. by rewrite drawn_drawn.
Qed.

(** The round at index [m] of [lats], when one of the other lists ends
    at [m]. *)
Ltac failing_round lats lons years locations m :=
  let w := fresh "w" in
  intros w; unfold partial_round;
  destruct (decide (m < length lons)%nat);
  [ rewrite (proj2 (Nat.ltb_lt m (length lons))) by lia;
    rewrite !(index_lt lons m), !(index_lt lats m) by lia;
    destruct (decide (m < length years)%nat);
    [ rewrite (index_lt years m), (index_ge locations m) by lia
    | rewrite (index_ge years m) by lia ]
  | rewrite (proj2 (Nat.ltb_ge m (length lons))) by lia;
    rewrite (index_ge lons m) by lia; rewrite drawn_nil ];
  reflexivity.

Lemma plot_meetings_fails lats lons years locations w :
  (shortest lons years locations < length lats)%nat ->
  run (plot_meetings lats lons years locations) w
  = (let m := shortest lons years locations in
     drawn w (setup ++ flat_map (round lats lons years locations) (seq 0 m)
              ++ partial_round lats lons m),
     Raise IndexError).
Proof.
  intros Hm. set (m := shortest lons years locations) in *.
  assert (m <= length lons /\ m <= length years /\ m <= length locations
          /\ (m = length lons \/ m = length years \/ m = length locations))%nat
    as (Hl1 & Hl2 & Hl3 & Hmin) by (unfold m, shortest; lia).
  unfold plot_meetings. rewrite !run_draw_bind, !drawn_drawn.
  replace (length lats) with (m + S (length lats - S m))%nat by lia.
  rewrite seq_app. cbn [seq Nat.add].
  rewrite run_bind.
  rewrite (for_in_fails _ (round lats lons years locations) _ _ _
             (partial_round lats lons m) IndexError).
  - rewrite drawn_drawn. unfold setup. by rewrite <- !app_assoc.
  - round_run.
  - failing_round lats lons years locations m.
Qed.

Lemma plot_meetings_run_ge lats lons years locations w :
  (length lats <= length lons)%nat -> (length lats <= length years)%nat ->
  (length lats <= length locations)%nat ->
  run (plot_meetings lats lons years locations) w =
  (shown w (rendering lats lons years locations), Ok tt).
Proof.
  intros H1 H2 H3. unfold plot_meetings.
  setup_and_loop lats lons years locations.
  unfold rendering, setup. by rewrite <- !app_assoc.
Qed.

Lemma flat_map_ext_seq {B} (f g : nat -> list B) (n : nat) :
  (forall i, (i < n)%nat -> f i = g i) ->
  flat_map f (seq 0 n) = flat_map g (seq 0 n).
Proof.
  intros H. induction n as [|n IH]; [done|].
  rewrite seq_S, !flat_map_app. simpl. rewrite IH, H by (intros; auto with lia).
  done.
Qed.

Lemma rendering_take lats lons years locations :
  let n := length lats in
  rendering lats lons years locations
  = rendering lats (take n lons) (take n years) (take n locations).
Proof.
  intros n. unfold rendering. f_equal. f_equal. fold n.
  apply flat_map_ext_seq. intros i Hi. unfold round.
  rewrite !(lookup_total_take_lt _ n i) by lia.
  destruct i as [|i]; [done|]. cbn [Nat.ltb Nat.leb].
  by rewrite !(lookup_total_take_lt _ n (S i - 1)) by lia.
Qed.

Section More.

Variable encode : list draw_cmd -> fmt -> list Byte.byte.

Lemma main_plot_run_ge output_file args lats lons years locations w :
  (length lats <= length lons)%nat -> (length lats <= length years)%nat ->
  (length lats <= length locations)%nat ->
  run (main_plot encode output_file args lats lons years locations) w =
  (let cmds := rendering lats lons years locations in
   saved w cmds output_file (encode (canvas w ++ cmds) (format args)), Ok tt).
Proof.
  intros H1 H2 H3. unfold main_plot.
  setup_and_loop lats lons years locations.
  unfold rendering, setup. by rewrite <- !app_assoc.
Qed.

Lemma main_plot_fails output_file args lats lons years locations w :
  (shortest lons years locations < length lats)%nat ->
  run (main_plot encode output_file args lats lons years locations) w
  = (let m := shortest lons years locations in
     drawn w (setup ++ flat_map (round lats lons years locations) (seq 0 m)
              ++ partial_round lats lons m),
     Raise IndexError).
Proof.
  intros Hm. set (m := shortest lons years locations) in *.
  assert (m <= length lons /\ m <= length years /\ m <= length locations
          /\ (m = length lons \/ m = length years \/ m = length locations))%nat
    as (Hl1 & Hl2 & Hl3 & Hmin) by (unfold m, shortest; lia).
  unfold main_plot. rewrite !run_draw_bind, !drawn_drawn.
  replace (length lats) with (m + S (length lats - S m))%nat by lia.
  rewrite seq_app. cbn [seq Nat.add].
  rewrite run_bind.
  rewrite (for_in_fails _ (round lats lons years locations) _ _ _
             (partial_round lats lons m) IndexError).
  - rewrite drawn_drawn. unfold setup. by rewrite <- !app_assoc.
  - round_run.
  - failing_round lats lons years locations m.
Qed.

(** X5.  When [lons], [years] and [locations] are at least as long as
    [lats], the renderer ends without an error and has drawn exactly: the
    nine set-up calls in the order of the source, then for each index of
    [lats] its marker, its label and (from the second on) the arrow from
    the point before, then the title.  What the other lists hold beyond
    the length of [lats] is never read. *)
Theorem renderer_exact_sequence (output_file : string) (args : namespace)
    (lats lons : list float) (years : list Z) (locations : list string)
    (w : world) :
  (length lats <= length lons)%nat -> (length lats <= length years)%nat ->
  (length lats <= length locations)%nat ->
  let n := length lats in
  let cmds :=
    setup ++ flat_map (round lats lons years locations) (seq 0 n)
    ++ [Title "Educause Annual Meeting Locations (1999-2024)"] in
  run (plot_meetings lats lons years locations) w = (shown w cmds, Ok tt)
  /\ run (main_plot encode output_file args lats lons years locations) w
     = (saved w cmds output_file (encode (canvas w ++ cmds) (format args)),
        Ok tt)
  /\ run (plot_meetings lats (take n lons) (take n years) (take n locations)) w
     = (shown w cmds, Ok tt).
Proof.
  intros H1 H2 H3 n cmds.
  split; [by apply plot_meetings_run_ge|].
  split; [by apply main_plot_run_ge|].
  rewrite plot_meetings_run_ge by (rewrite length_take; lia).
  by rewrite <- rendering_take.
Qed.

(** X6.  On four lists of one length the renderer draws one marker for
    each index, the [i]-th at longitude [lons[i]] and latitude [lats[i]]
    (the first coordinate of a marker is the longitude). *)
Theorem renderer_markers (output_file : string) (args : namespace)
    (lats lons : list float) (years : list Z) (locations : list string)
    (w : world) :
  length lons = length lats -> length years = length lats ->
  length locations = length lats ->
  exists cmds,
    run (plot_meetings lats lons years locations) w = (shown w cmds, Ok tt)
    /\ run (main_plot encode output_file args lats lons years locations) w
       = (saved w cmds output_file (encode (canvas w ++ cmds) (format args)),
          Ok tt)
    /\ length (markers cmds) = length lats
    /\ forall i x y,
         lons !! i = Some x -> lats !! i = Some y ->
         markers cmds !! i = Some (x, y).
Proof.
  intros H1 H2 H3. exists (rendering lats lons years locations).
  split; [by apply plot_meetings_run|].
  split; [by apply main_plot_run|].
  rewrite markers_rendering.
  split; [by rewrite length_fmap, length_seq|].
  intros i x y Hx Hy. pose proof (lookup_lt_Some _ _ _ Hy) as Hlt.
  rewrite list_lookup_fmap, lookup_seq_lt by lia. simpl.
  by rewrite (list_lookup_total_correct _ _ _ Hx),
    (list_lookup_total_correct _ _ _ Hy).
Qed.

(** X7.  When one of [lons], [years], [locations] is shorter than [lats],
    the renderer raises [IndexError] in the round at the length [m] of
    the shortest: the rounds before [m] are drawn in full, of round [m]
    only the marker and only if [lons] reaches [m].  No title is set, no
    figure is shown, nothing is printed and no file is written. *)
Theorem renderer_short_list_fails (output_file : string) (args : namespace)
    (lats lons : list float) (years : list Z) (locations : list string)
    (w : world) :
  (shortest lons years locations < length lats)%nat ->
  let m := shortest lons years locations in
  let cmds :=
    setup ++ flat_map (round lats lons years locations) (seq 0 m)
    ++ partial_round lats lons m in
  run (plot_meetings lats lons years locations) w
  = (World (stdin w) (stdout w) (fs w) (canvas w ++ cmds) (displayed w),
     Raise IndexError)
  /\ run (main_plot encode output_file args lats lons years locations) w
     = (World (stdin w) (stdout w) (fs w) (canvas w ++ cmds) (displayed w),
        Raise IndexError).
Proof.
  intros Hm m cmds.
  split; [by apply plot_meetings_fails | by apply main_plot_fails].
Qed.



End More.

(** ** Further properties of the prompt and of [main] *)

Lemma confirm_overwrite_eof filepath w data :
  fs w !! filepath = Some data -> stdin w = [] ->
  run (confirm_overwrite filepath) w =
  (World [] (stdout w ++ [overwrite_prompt filepath]) (fs w) (canvas w)
         (displayed w),
   Raise EOFError).
Proof.
  intros Hf Hin. unfold confirm_overwrite. rewrite run_bind.
  unfold path_exists at 1. cbn [run]. rewrite Hf.
  rewrite bool_decide_eq_true_2 by eauto.
  rewrite run_bind. unfold input, run. rewrite Hin. reflexivity.
Qed.


(** The join of the static table, in any world. *)
Lemma get_coordinates_meetings_any :
  exists lats lons years locations,
    (forall w, run (get_coordinates meetings) w
               = (w, Ok (lats, lons, years, locations)))
    /\ length lons = length lats /\ length years = length lats
    /\ length locations = length lats.
Proof.
  eexists _, _, _, _. split.
  - intros w. rewrite get_coordinates_run.
    assert (diagnostics city_coords meetings = []) as ->
      by (vm_compute; reflexivity).
    rewrite emit_nil. unfold lists_of. reflexivity.
  - repeat split; vm_compute; reflexivity.
Qed.

Section Main.

Variable encode : list draw_cmd -> fmt -> list Byte.byte.

Lemma main_run_confirmed args w w1 :
  run (confirm_overwrite (output_path args)) w = (w1, Ok true) ->
  exists lats lons years locations,
    (forall w0, run (get_coordinates meetings) w0
                = (w0, Ok (lats, lons, years, locations)))
    /\ run (main encode args) w
       = (let cmds := rendering lats lons years locations in
          saved w1 cmds (output_path args)
                (encode (canvas w1 ++ cmds) (format args)), Ok tt).
Proof.
  intros Hc.
  destruct get_coordinates_meetings_any
    as (lats & lons & years & locations & Hj & H1 & H2 & H3).
  exists lats, lons, years, locations. split; [exact Hj|].
  unfold main. fold (output_path args).
  rewrite (run_bind_ok _ _ _ _ _ Hc). cbn [negb].
  rewrite run_bind, run_ret, (run_bind_ok _ _ _ _ _ (Hj w1)).
  by rewrite main_plot_run.
Qed.

Lemma main_run_declined args w w1 :
  run (confirm_overwrite (output_path args)) w = (w1, Ok false) ->
  run (main encode args) w
  = (emit w1 [Printed "Operation cancelled by the user."], Exit 0).
Proof.
  intros Hc. unfold main. fold (output_path args).
  rewrite (run_bind_ok _ _ _ _ _ Hc). cbn [negb].
  by rewrite run_bind, run_print_bind.
Qed.

Lemma main_run_raised args w w1 e :
  run (confirm_overwrite (output_path args)) w = (w1, Raise e) ->
  run (main encode args) w = (w1, Raise e).
Proof.
  intros Hc. unfold main. fold (output_path args).
  by rewrite run_bind, Hc.
Qed.

End Main.

(** X10.  When the file exists and a line can be read, the prompt is
    written once, exactly that line is taken from standard input, no file
    and no figure is touched, and the answer counts as a yes exactly when
    the line is [y] or [Y]: a longer line such as [yes], or one with a
    blank around the letter, is a no. *)
Theorem confirm_overwrite_answer (filepath : string) (w : world)
    (data : list Byte.byte) (answer : string) (rest : list string) :
  fs w !! filepath = Some data -> stdin w = answer :: rest ->
  exists b,
    run (confirm_overwrite filepath) w
    = (World rest (stdout w ++ [overwrite_prompt filepath]) (fs w) (canvas w)
             (displayed w), Ok b)
    /\ (b = true <-> answer = "y" \/ answer = "Y").
Proof.
  intros Hf Hin. exists (lower answer =? "y")%string.
  split; [by apply (confirm_overwrite_present _ _ data)|].
  by rewrite String.eqb_eq, lower_eq_y.
Qed.

Section MainProperties.

Variable encode : list draw_cmd -> fmt -> list Byte.byte.


(** X12.  When the output file exists and standard input is exhausted,
    [main] ends with [EOFError] right after the prompt: nothing else is
    printed, nothing is drawn and the files are as they were. *)
Theorem main_eof_at_prompt (args : namespace) (w : world)
    (data : list Byte.byte) :
  fs w !! output_path args = Some data -> stdin w = [] ->
  run (main encode args) w
  = (World [] (stdout w ++ [overwrite_prompt (output_path args)]) (fs w)
           (canvas w) (displayed w),
     Raise EOFError).
Proof.
  intros Hf Hin.
  by rewrite (main_run_raised _ _ _ _ _ (confirm_overwrite_eof _ _ _ Hf Hin)).
Qed.



(** X15.  Whatever the arguments and the world, [main] shows no figure,
    changes no file other than the one at the output path, and takes at
    most one line from standard input. *)
Theorem main_touches_only_output (args : namespace) (w : world) :
  let w' := (run (main encode args) w).1 in
  displayed w' = displayed w
  /\ (forall p, p <> output_path args -> fs w' !! p = fs w !! p)
  /\ (stdin w' = stdin w \/ exists line, stdin w = line :: stdin w').
Proof.
  intros w'. subst w'.
  destruct (fs w !! output_path args) as [data|] eqn:Hf.
  - destruct (stdin w) as [|answer rest] eqn:Hin.
    + rewrite (main_run_raised _ _ _ _ _ (confirm_overwrite_eof _ _ _ Hf Hin)).
      simpl. split; [done|]. split; [done|]. by left.
    + pose proof (confirm_overwrite_present _ _ _ _ _ Hf Hin) as Hc.
      destruct (lower answer =? "y")%string.
      * destruct (main_run_confirmed encode _ _ _ Hc)
          as (? & ? & ? & ? & _ & ->).
        simpl. split; [done|].
        split; [intros p Hp; by rewrite lookup_insert_ne | right; eauto].
      * rewrite (main_run_declined _ _ _ _ Hc). simpl.
        split; [done|]. split; [done|]. right; eauto.
  - destruct (main_run_confirmed encode _ _ _ (confirm_overwrite_absent _ _ Hf))
      as (? & ? & ? & ? & _ & ->).
    simpl. split; [done|].
    split; [intros p Hp; by rewrite lookup_insert_ne | by left].
Qed.

End MainProperties.

(** ** The further properties at concrete inputs *)

Lemma renderer_exact_sequence_witness :
  let w := World [] [] ∅ [] [] in
  let lons := (sample_lons ++ [-84.3880])%float in
  let years := sample_years ++ [2001; 2002] in
  let cmds :=
    setup ++ flat_map (round sample_lats lons years sample_locations) (seq 0 2)
    ++ [Title "Educause Annual Meeting Locations (1999-2024)"] in
  (length sample_lats <= length lons)%nat
  /\ (length sample_lats <= length years)%nat
  /\ (length sample_lats <= length sample_locations)%nat
  /\ run (plot_meetings sample_lats lons years sample_locations) w
     = (shown w cmds, Ok tt)
  /\ run (main_plot sample_encode "map.png" (Namespace "map" png)
            sample_lats lons years sample_locations) w
     = (saved w cmds "map.png" (sample_encode (canvas w ++ cmds) png), Ok tt)
  /\ run (plot_meetings sample_lats (take 2 lons) (take 2 years)
            (take 2 sample_locations)) w
     = (shown w cmds, Ok tt).
Proof.
  intros w lons years cmds.
  split; [simpl; lia|]. split; [simpl; lia|]. split; [simpl; lia|].
  apply (renderer_exact_sequence sample_encode "map.png" (Namespace "map" png)
           sample_lats lons years sample_locations w); simpl; lia.
Defined.

Lemma renderer_markers_witness :
  let w := World [] [] ∅ [] [] in
  length sample_lons = length sample_lats
  /\ length sample_years = length sample_lats
  /\ length sample_locations = length sample_lats
  /\ exists cmds,
       run (plot_meetings sample_lats sample_lons sample_years sample_locations) w
       = (shown w cmds, Ok tt)
       /\ run (main_plot sample_encode "map.png" (Namespace "map" png)
                 sample_lats sample_lons sample_years sample_locations) w
          = (saved w cmds "map.png" (sample_encode (canvas w ++ cmds) png), Ok tt)
       /\ length (markers cmds) = length sample_lats
       /\ forall i x y,
            sample_lons !! i = Some x -> sample_lats !! i = Some y ->
            markers cmds !! i = Some (x, y).
Proof.
  intros w. split; [reflexivity|]. split; [reflexivity|]. split; [reflexivity|].
  apply (renderer_markers sample_encode "map.png" (Namespace "map" png)
           sample_lats sample_lons sample_years sample_locations w);
    reflexivity.
Defined.

Lemma renderer_short_list_fails_witness :
  let w := World [] [] ∅ [] [] in
  let years := [1999] in
  let cmds :=
    setup ++ flat_map (round sample_lats sample_lons years sample_locations)
                      (seq 0 1)
    ++ partial_round sample_lats sample_lons 1 in
  (shortest sample_lons years sample_locations < length sample_lats)%nat
  /\ run (plot_meetings sample_lats sample_lons years sample_locations) w
     = (World (stdin w) (stdout w) (fs w) (canvas w ++ cmds) (displayed w),
        Raise IndexError)
  /\ run (main_plot sample_encode "map.png" (Namespace "map" png)
            sample_lats sample_lons years sample_locations) w
     = (World (stdin w) (stdout w) (fs w) (canvas w ++ cmds) (displayed w),
        Raise IndexError).
Proof.
  intros w years cmds.
  assert (shortest sample_lons years sample_locations < length sample_lats)%nat
    as Hm by (vm_compute; lia).
  split; [exact Hm|].
  exact (renderer_short_list_fails sample_encode "map.png" (Namespace "map" png)
           sample_lats sample_lons years sample_locations w Hm).
Defined.


Lemma confirm_overwrite_answer_witness :
  let w := World ["yes"; "y"] [] {[ "map.png" := sample_old ]} [] [] in
  fs w !! "map.png" = Some sample_old
  /\ stdin w = ["yes"; "y"]
  /\ exists b,
       run (confirm_overwrite "map.png") w
       = (World ["y"] (stdout w ++ [overwrite_prompt "map.png"]) (fs w)
                (canvas w) (displayed w), Ok b)
       /\ (b = true <-> "yes" = "y" \/ "yes" = "Y").
Proof.
  intros w.
  assert (fs w !! "map.png" = Some sample_old) as Hf by (vm_compute; reflexivity).
  split; [exact Hf|]. split; [reflexivity|].
  exact (confirm_overwrite_answer "map.png" w sample_old "yes" ["y"] Hf eq_refl).
Defined.

Lemma main_eof_at_prompt_witness :
  let args := Namespace "map" png in
  let w := World [] [] {[ "map.png" := sample_old ]} [] [] in
  fs w !! output_path args = Some sample_old
  /\ stdin w = []
  /\ run (main sample_encode args) w
     = (World [] (stdout w ++ [overwrite_prompt (output_path args)]) (fs w)
              (canvas w) (displayed w),
        Raise EOFError).
Proof.
  intros args w.
  assert (fs w !! output_path args = Some sample_old) as Hf
    by (vm_compute; reflexivity).
  split; [exact Hf|]. split; [reflexivity|].
  exact (main_eof_at_prompt sample_encode args w sample_old Hf eq_refl).
Defined.


